(** * Shallow embedding of the AD569x DAC driver (src/src/lib.rs)

    The driver is generic over an [embedded_hal::i2c::I2c] transport.  The
    transport is modelled by its one method used here, [write], taking the
    transport by [&mut self]: a function from the transport state, the
    address and the bytes to the new transport state and a [Result].

    Driver methods take [&mut self]; they are modelled as explicit state
    passing over the driver record.  Each call of the transport's [write]
    is also recorded in a trace (address, bytes, result), which is how the
    bus traffic issued by an operation is observed. *)

From Stdlib Require Import ZArith List Bool Lia.
Import ListNotations.
Open Scope Z_scope.

(** Rust's [Result<T, E>]. *)
Inductive result (T E : Type) : Type :=
| Ok : T -> result T E
| Err : E -> result T E.
Arguments Ok {T E} _.
Arguments Err {T E} _.

(** [pub enum Command] with its discriminants. *)
Inductive Command : Type :=
| NOP
| WriteInput
| UpdateDAC
| WriteDACAndInput
| WriteControl.

(** [command as u8] *)
Definition command_code (c : Command) : Z :=
  match c with
  | NOP => 0x00
  | WriteInput => 0x10
  | UpdateDAC => 0x20
  | WriteDACAndInput => 0x30
  | WriteControl => 0x40
  end.

(** [pub enum OperatingMode] with its discriminants. *)
Inductive OperatingMode : Type :=
| NormalMode
| Output1kImpedance
| Output100kImpedance
| OutputTristate.

(** [mode as u16] *)
Definition mode_code (m : OperatingMode) : Z :=
  match m with
  | NormalMode => 0x00
  | Output1kImpedance => 0x01
  | Output100kImpedance => 0x02
  | OutputTristate => 0x03
  end.

(** ** 16-bit machine arithmetic *)

Definition is_u16 (x : Z) : Prop := 0 <= x < 2 ^ 16.
Definition is_u8 (x : Z) : Prop := 0 <= x < 2 ^ 8.

(** [x << n] on [u16] (n < 16): bits shifted past bit 15 are lost. *)
Definition shl16 (x n : Z) : Z := Z.land (Z.shiftl x n) 0xFFFF.

(** [b as u16] for a [bool]. *)
Definition bool_u16 (b : bool) : Z := Z.b2z b.

(** [u16::to_be_bytes]: [[high_byte, low_byte]]. *)
Definition to_be_bytes (d : Z) : Z * Z :=
  (Z.land (Z.shiftr d 8) 0xFF, Z.land d 0xFF).

(** The control word of [set_mode]:
    [0x0u16 | ((mode as u16) << 13) | ((enable_ref as u16) << 12)
             | (gain_2x as u16) << 11]. *)
Definition set_mode_data (mode : OperatingMode) (enable_ref gain_2x : bool) : Z :=
  Z.lor (Z.lor (Z.lor 0x0 (shl16 (mode_code mode) 13))
               (shl16 (bool_u16 enable_ref) 12))
        (shl16 (bool_u16 gain_2x) 11).

(** ** The driver *)

Section Driver.

Context {I2C Error : Type}.

(** [I2c::write(&mut self, address, bytes) -> Result<(), Self::Error>]. *)
Variable i2c_write : I2C -> Z -> list Z -> I2C * result unit Error.

(** [pub struct AdafruitAD569x<I2C> { i2c: I2C, addr: u8 }] *)
Record AdafruitAD569x : Type := mk_driver {
  i2c : I2C;
  addr : Z
}.

(** One transport call: target address, bytes written, result returned. *)
Definition bus_write : Type := (Z * list Z * result unit Error)%type.

(** A method on [&mut self]: new driver state, the transport calls it
    issued, and its return value. *)
Definition M (A : Type) : Type := AdafruitAD569x -> AdafruitAD569x * list bus_write * A.

Definition ret {A} (a : A) : M A := fun self => (self, [], a).

Definition bind {A B} (m : M A) (k : A -> M B) : M B :=
  fun self =>
    let '(self1, t1, a) := m self in
    let '(self2, t2, b) := k a self1 in
    (self2, t1 ++ t2, b).

(** Rust's [?] on [Result<_, I2C::Error>]: return the error early. *)
Definition try_ {A B} (m : M (result A Error)) (k : A -> M (result B Error))
  : M (result B Error) :=
  bind m (fun r => match r with
                   | Ok a => k a
                   | Err e => ret (Err e)
                   end).

(** [pub fn new(i2c: I2C, addr: u8) -> Self] *)
Definition new (i2c0 : I2C) (addr0 : Z) : AdafruitAD569x :=
  {| i2c := i2c0; addr := addr0 |}.

(** [fn write(&mut self, command: Command, data: u16)] *)
Definition write (command : Command) (data : Z) : M (result unit Error) :=
  fun self =>
    let '(high_byte, low_byte) := to_be_bytes data in
    let bytes := [command_code command; high_byte; low_byte] in
    let '(i2c', r) := i2c_write (i2c self) (addr self) bytes in
    ({| i2c := i2c'; addr := addr self |}, [(addr self, bytes, r)], r).

(** [pub fn write_dac(&mut self, value: u16)] *)
Definition write_dac (value : Z) : M (result unit Error) :=
  write WriteInput value.

(** [pub fn update_dac(&mut self)] *)
Definition update_dac : M (result unit Error) :=
  write UpdateDAC 0x00.

(** [pub fn write_update_dac(&mut self, value: u16)] *)
Definition write_update_dac (value : Z) : M (result unit Error) :=
  write WriteDACAndInput value.

(** [pub fn reset(&mut self)] *)
Definition reset : M (result unit Error) :=
  write WriteControl 0x8000.

(** [pub fn set_mode(&mut self, mode, enable_ref, gain_2x)] *)
Definition set_mode (mode : OperatingMode) (enable_ref gain_2x : bool)
  : M (result unit Error) :=
  write WriteControl (set_mode_data mode enable_ref gain_2x).

(** [pub fn begin(&mut self)]:
    [self.reset()?; self.set_mode(NormalMode, true, false)?; Ok(())]. *)
Definition begin : M (result unit Error) :=
  try_ reset (fun _ =>
  try_ (set_mode NormalMode true false) (fun _ =>
  ret (Ok tt))).

(** The public operations of [impl AdafruitAD569x]. *)
Inductive PublicOp : Type :=
| OpBegin
| OpWriteDac (value : Z)
| OpUpdateDac
| OpWriteUpdateDac (value : Z)
| OpReset
| OpSetMode (mode : OperatingMode) (enable_ref gain_2x : bool).

Definition run_op (op : PublicOp) : M (result unit Error) :=
  match op with
  | OpBegin => begin
  | OpWriteDac v => write_dac v
  | OpUpdateDac => update_dac
  | OpWriteUpdateDac v => write_update_dac v
  | OpReset => reset
  | OpSetMode m e g => set_mode m e g
  end.

(** A caller issuing a sequence of operations on the same handle,
    collecting each result and going on after errors. *)
Fixpoint run_ops (ops : list PublicOp) : M (list (result unit Error)) :=
  match ops with
  | [] => ret []
  | op :: ops' =>
      bind (run_op op) (fun r =>
      bind (run_ops ops') (fun rs =>
      ret (r :: rs)))
  end.

(** The observation "exactly one transport write of [bytes] to the stored
    address, whose result is returned and whose new transport state is kept". *)
Definition one_write (bytes : list Z) : M (result unit Error) :=
  fun self =>
    let '(i2c', r) := i2c_write (i2c self) (addr self) bytes in
    ({| i2c := i2c'; addr := addr self |}, [(addr self, bytes, r)], r).

End Driver.

(** ** The protocol as the spec words it *)

(** Big-endian split of a 16-bit payload. *)
Definition high (p : Z) : Z := p / 256.
Definition low (p : Z) : Z := p mod 256.

(** [(mode_code << 13) | (enable_reference << 12) | (gain_2x << 11)]. *)
Definition control_payload (mode : OperatingMode) (enable_ref gain_2x : bool) : Z :=
  Z.lor (Z.lor (Z.shiftl (mode_code mode) 13) (Z.shiftl (Z.b2z enable_ref) 12))
        (Z.shiftl (Z.b2z gain_2x) 11).

(** The transport calls of an outcome [(self', trace, r)]. *)
Definition trace_of {S A R} (o : S * list A * R) : list A :=
  snd (fst o).

(** ** Concrete transports *)

(** A transport replaying scripted results, one per write
    (success once the script is exhausted). *)
Definition scripted_write (s : list (result unit Z)) (a : Z) (bytes : list Z)
  : list (result unit Z) * result unit Z :=
  match s with
  | [] => ([], Ok tt)
  | r :: s' => (s', r)
  end.

(** A transport on which every write fails (e.g. no acknowledge). *)
Definition failing_write (st : unit) (a : Z) (bytes : list Z) : unit * result unit Z :=
  (tt, Err 7).

Example begin_trace_ok :
  trace_of (begin scripted_write (new [] 0x4C)) =
    [(0x4C, [0x40; 0x80; 0x00], Ok tt); (0x4C, [0x40; 0x10; 0x00], Ok tt)].
Proof. reflexivity. Qed.

Example begin_trace_fail :
  begin failing_write (new tt 0x4C) =
    (new tt 0x4C, [(0x4C, [0x40; 0x80; 0x00], Err 7)], Err 7).
Proof. reflexivity. Qed.

Example write_dac_1234 :
  trace_of (write_dac scripted_write 0x1234 (new [] 0x4C)) =
    [(0x4C, [0x10; 0x12; 0x34], Ok tt)].
Proof. reflexivity. Qed.

Example set_mode_all :
  map (fun '(m, e, g) => (set_mode_data m e g, control_payload m e g))
      [(NormalMode, true, false); (OutputTristate, true, true);
       (Output100kImpedance, false, true)] =
  [(0x1000, 0x1000); (0x7800, 0x7800); (0x4800, 0x4800)].
Proof. reflexivity. Qed.

(** ** Properties *)

Section Proofs.

Context {I2C Error : Type}.
Variable i2c_write : I2C -> Z -> list Z -> I2C * result unit Error.

(** [to_be_bytes] is the big-endian split of a 16-bit value. *)
Lemma to_be_bytes_split (v : Z) :
  is_u16 v -> to_be_bytes v = (high v, low v).
Proof.
  unfold is_u16, to_be_bytes, high, low; intros Hv.
  change 0xFF with (Z.ones 8).
  rewrite !Z.land_ones by lia.
  rewrite Z.shiftr_div_pow2 by lia.
  change (2 ^ 8) with 256.
  f_equal. apply Z.mod_small. split.
  - apply Z.div_pos; lia.
  - apply Z.div_lt_upper_bound; lia.
Qed.

(** [write] issues the one frame [[command, high_byte, low_byte]]. *)
Lemma write_one_write (c : Command) (d : Z) (self : AdafruitAD569x) :
  write i2c_write c d self =
  one_write i2c_write [command_code c; fst (to_be_bytes d); snd (to_be_bytes d)] self.
Proof. reflexivity. Qed.

(** The control word built by [set_mode] is the spec's packing. *)
Lemma set_mode_data_payload (m : OperatingMode) (e g : bool) :
  set_mode_data m e g = control_payload m e g.
Proof. destruct m, e, g; reflexivity. Qed.

Lemma control_payload_u16 (m : OperatingMode) (e g : bool) :
  is_u16 (control_payload m e g).
Proof. destruct m, e, g; unfold is_u16; cbv; split; congruence. Qed.

(** C1: [set_mode mode enable_ref gain_2x] issues exactly one transport
    write, of [[0x40, high p, low p]] with
    [p = (mode << 13) | (enable_ref << 12) | (gain_2x << 11)]; bit 15 and
    bits 10..0 of [p] are zero; [set_mode(NormalMode, true, false)] sends
    [[0x40, 0x10, 0x00]]. *)
Theorem set_mode_frame :
  (forall (m : OperatingMode) (e g : bool) (self : AdafruitAD569x),
     let p := control_payload m e g in
     set_mode i2c_write m e g self = one_write i2c_write [0x40; high p; low p] self
     /\ Z.testbit p 15 = false
     /\ (forall i, 0 <= i <= 10 -> Z.testbit p i = false))
  /\ (forall self : AdafruitAD569x,
        set_mode i2c_write NormalMode true false self
        = one_write i2c_write [0x40; 0x10; 0x00] self).
Proof.
  split.
  - intros m e g self p. split; [|split].
    + unfold set_mode. rewrite write_one_write, set_mode_data_payload.
      rewrite to_be_bytes_split by apply control_payload_u16. reflexivity.
    + subst p. destruct m, e, g; reflexivity.
    + intros i Hi. subst p. unfold control_payload.
      rewrite !Z.lor_spec, !Z.shiftl_spec_low by lia. reflexivity.
  - intros self. reflexivity.
Qed.

(** C3: for every 16-bit [value], [write_dac value] issues exactly one
    transport write, of [[0x10, high value, low value]]. *)
Theorem write_dac_frame (value : Z) (self : AdafruitAD569x) :
  is_u16 value ->
  write_dac i2c_write value self
  = one_write i2c_write [0x10; high value; low value] self.
Proof.
  intros Hv. unfold write_dac. rewrite write_one_write, to_be_bytes_split by exact Hv.
  reflexivity.
Qed.

(** C4: for every 16-bit [value], [write_update_dac value] issues exactly
    one transport write, of [[0x30, high value, low value]]. *)
Theorem write_update_dac_frame (value : Z) (self : AdafruitAD569x) :
  is_u16 value ->
  write_update_dac i2c_write value self
  = one_write i2c_write [0x30; high value; low value] self.
Proof.
  intros Hv. unfold write_update_dac.
  rewrite write_one_write, to_be_bytes_split by exact Hv.
  reflexivity.
Qed.

(** C5: [update_dac] issues exactly one transport write, of
    [[0x20, 0x00, 0x00]], whatever the state of the handle. *)
Theorem update_dac_frame (self : AdafruitAD569x) :
  update_dac i2c_write self = one_write i2c_write [0x20; 0x00; 0x00] self.
Proof. reflexivity. Qed.

(** C6: [reset] issues exactly one transport write, of [[0x40, 0x80, 0x00]]:
    a [WriteControl] command whose payload is [0x8000], bit 15 alone set. *)
Theorem reset_frame (self : AdafruitAD569x) :
  reset i2c_write self = one_write i2c_write [0x40; 0x80; 0x00] self
  /\ reset i2c_write self = write i2c_write WriteControl 0x8000 self
  /\ 0x8000 = Z.shiftl 1 15.
Proof. split; [|split]; reflexivity. Qed.

(** Unfold a driver operation down to its transport calls. *)
Ltac unfold_driver :=
  unfold run_op, begin, try_, bind, ret, write_dac, update_dac,
    write_update_dac, reset, set_mode, write, one_write; cbn.

Ltac split_calls :=
  repeat match goal with
  | r : result unit Error |- _ => destruct r as [[]|?]; cbn
  | |- context [i2c_write ?c ?a ?b] =>
      let i := fresh "i" in let r := fresh "r" in
      destruct (i2c_write c a b) as [i r]; cbn
  end.

(** C2: [begin] first writes the reset frame [[0x40, 0x80, 0x00]]; if that
    write fails with [e] it stops there and returns [Err e]; otherwise it
    writes the configure frame [[0x40, 0x10, 0x00]] and returns that
    write's result.  Both go to the stored address. *)
Theorem begin_writes (self : AdafruitAD569x) :
  begin i2c_write self =
  (let a := addr self in
   let '(i1, r1) := i2c_write (i2c self) a [0x40; 0x80; 0x00] in
   match r1 with
   | Err e => ({| i2c := i1; addr := a |}, [(a, [0x40; 0x80; 0x00], Err e)], Err e)
   | Ok u =>
       let '(i2, r2) := i2c_write i1 a [0x40; 0x10; 0x00] in
       ({| i2c := i2; addr := a |},
        [(a, [0x40; 0x80; 0x00], Ok u); (a, [0x40; 0x10; 0x00], r2)],
        match r2 with Ok _ => Ok tt | Err e => Err e end)
   end).
Proof. unfold_driver. split_calls; reflexivity. Qed.

Ltac close_result :=
  split;
  [ let H := fresh in intros ? ? ? H; cbn in H;
    repeat match goal with
    | H : _ \/ _ |- _ => destruct H
    | H : (_, _, _) = (_, _, _) |- _ => inversion H; clear H; subst
    | H : False |- _ => destruct H
    end; reflexivity
  | let H := fresh in intros H;
    repeat match goal with
    | H : Forall _ (_ :: _) |- _ => inversion H; clear H; subst
    end; cbn in *; try reflexivity; try discriminate ].

(** C7: the value an operation returns is what the transport returned:
    if a transport write of the operation fails with [e], the operation
    returns exactly [Err e]; if all its transport writes succeed, it returns
    [Ok(())]. *)
Theorem run_op_result (op : PublicOp) (self : AdafruitAD569x) :
  let '(_, tr, r) := run_op i2c_write op self in
  (forall a b e, In (a, b, Err e) tr -> r = Err e)
  /\ (Forall (fun w : Z * list Z * result unit Error => snd w = Ok tt) tr -> r = Ok tt).
Proof. destruct op; unfold_driver; split_calls; close_result. Qed.

(** C8 (amended): every operation other than [begin] issues exactly one
    transport write; [begin] issues two when the reset write succeeds and
    only the reset write when it fails, so never more than two. *)
Theorem run_op_write_count (op : PublicOp) (self : AdafruitAD569x) :
  length (trace_of (run_op i2c_write op self)) =
  match op with
  | OpBegin =>
      match snd (i2c_write (i2c self) (addr self) [0x40; 0x80; 0x00]) with
      | Ok _ => 2%nat
      | Err _ => 1%nat
      end
  | _ => 1%nat
  end.
Proof. destruct op; unfold trace_of; unfold_driver; split_calls; reflexivity. Qed.

(** Every transport write of one operation targets the stored address,
    and the operation leaves the stored address unchanged. *)
Lemma run_op_addr (op : PublicOp) (self : AdafruitAD569x) :
  let '(self', tr, _) := run_op i2c_write op self in
  addr self' = addr self
  /\ Forall (fun w : Z * list Z * result unit Error => fst (fst w) = addr self) tr.
Proof. destruct op; unfold_driver; split_calls; repeat constructor. Qed.

(** C9: [new] keeps the given transport as it is and the given address
    unchanged, whatever its value; it takes no transport [write] to build. *)
Theorem new_stores (i2c0 : I2C) (a : Z) :
  i2c (new i2c0 a) = i2c0 /\ addr (new i2c0 a) = a.
Proof. split; reflexivity. Qed.

(** C10: over any sequence of operations on one handle, every transport
    write targets the address stored in the handle, and that address is
    never changed. *)
Theorem run_ops_addr (ops : list PublicOp) (self : AdafruitAD569x) :
  let '(self', tr, _) := run_ops i2c_write ops self in
  addr self' = addr self
  /\ Forall (fun w : Z * list Z * result unit Error => fst (fst w) = addr self) tr.
Proof.
  revert self. induction ops as [|op ops IH]; intros self.
  - cbn. split; [reflexivity | constructor].
  - cbn [run_ops]. unfold bind, ret.
    pose proof (run_op_addr op self) as Hop.
    destruct (run_op i2c_write op self) as [[self1 t1] r1].
    specialize (IH self1).
    destruct (run_ops i2c_write ops self1) as [[self2 t2] rs].
    destruct Hop as [Ha1 Hf1]. destruct IH as [Ha2 Hf2].
    rewrite app_nil_r. split.
    + congruence.
    + apply Forall_app. split; [exact Hf1|].
      rewrite <- Ha1. exact Hf2.
Qed.


(** *** Further properties of the code *)

Lemma land_ff_u8 (x : Z) : is_u8 (Z.land x 0xFF).
Proof.
  unfold is_u8. change 0xFF with (Z.ones 8).
  rewrite Z.land_ones by lia. apply Z.mod_pos_bound. lia.
Qed.

(** [to_be_bytes] of a 16-bit value gives two bytes from which the value
    is recovered as [high_byte * 256 + low_byte]. *)
Theorem to_be_bytes_roundtrip (d : Z) :
  is_u16 d ->
  let '(h, l) := to_be_bytes d in
  is_u8 h /\ is_u8 l /\ h * 256 + l = d.
Proof.
  intros Hd. pose proof (to_be_bytes_split d Hd) as E.
  pose proof (land_ff_u8 (Z.shiftr d 8)) as Hh.
  pose proof (land_ff_u8 d) as Hl.
  unfold to_be_bytes in *. injection E as Eh El.
  rewrite Eh in Hh |- *. rewrite El in Hl |- *.
  split; [exact Hh | split; [exact Hl|]].
  unfold high, low. pose proof (Z.div_mod d 256). lia.
Qed.

(** The control word built by [set_mode] decodes back to its arguments:
    bits 14..13 hold the mode code, bit 12 [enable_ref], bit 11 [gain_2x],
    and no bit at or above 15 is set. *)
Theorem set_mode_data_fields (m : OperatingMode) (e g : bool) :
  let d := set_mode_data m e g in
  Z.land (Z.shiftr d 13) 3 = mode_code m
  /\ Z.testbit d 12 = e
  /\ Z.testbit d 11 = g
  /\ Z.shiftr d 15 = 0.
Proof. destruct m, e, g; repeat split; reflexivity. Qed.

(** Distinct arguments of [set_mode] give distinct control words, hence
    distinct frames. *)
Theorem set_mode_data_injective (m m' : OperatingMode) (e e' g g' : bool) :
  set_mode_data m e g = set_mode_data m' e' g' -> m = m' /\ e = e' /\ g = g'.
Proof.
  intros H. destruct m, m', e, e', g, g'; cbv in H;
    first [discriminate H | repeat split].
Qed.

(** Every frame a public operation sends is three bytes
    [[opcode, high_byte, low_byte]], each byte in [0, 255], and the opcode
    is one of [0x10], [0x20], [0x30], [0x40]: [NOP] is never sent. *)
Theorem run_op_frames_well_formed (op : PublicOp) (self : AdafruitAD569x) :
  Forall (fun w : Z * list Z * result unit Error =>
            exists c h l, snd (fst w) = [c; h; l]
                          /\ In c [0x10; 0x20; 0x30; 0x40]
                          /\ is_u8 c /\ is_u8 h /\ is_u8 l)
         (trace_of (run_op i2c_write op self)).
Proof.
  destruct op; unfold trace_of; unfold_driver; split_calls;
    repeat constructor;
    (eexists _, _, _; split; [reflexivity|];
     split; [cbn; tauto|];
     repeat split; first [apply land_ff_u8 | unfold is_u8; lia]).
Qed.


End Proofs.

(** ** Witnesses and counterexamples *)

(** C3 at [value = 0x1234] on the scripted transport. *)
Lemma write_dac_frame_witness :
  is_u16 0x1234 /\
  write_dac scripted_write 0x1234 (new [] 0x4C)
  = one_write scripted_write [0x10; high 0x1234; low 0x1234] (new [] 0x4C).
Proof.
  split.
  - unfold is_u16; lia.
  - apply (write_dac_frame scripted_write). unfold is_u16; lia.
Defined.

(** C4 at [value = 0xBEEF] on the scripted transport. *)
Lemma write_update_dac_frame_witness :
  is_u16 0xBEEF /\
  write_update_dac scripted_write 0xBEEF (new [] 0x4C)
  = one_write scripted_write [0x30; high 0xBEEF; low 0xBEEF] (new [] 0x4C).
Proof.
  split.
  - unfold is_u16; lia.
  - apply (write_update_dac_frame scripted_write). unfold is_u16; lia.
Defined.

(** [to_be_bytes_roundtrip] at [0xBEEF]. *)
Lemma to_be_bytes_roundtrip_witness :
  is_u16 0xBEEF /\
  (let '(h, l) := to_be_bytes 0xBEEF in
   is_u8 h /\ is_u8 l /\ h * 256 + l = 0xBEEF).
Proof.
  split.
  - unfold is_u16; lia.
  - apply to_be_bytes_roundtrip. unfold is_u16; lia.
Defined.

(** [set_mode_data_injective] at one control word, [0x7000]. *)
Lemma set_mode_data_injective_witness :
  set_mode_data OutputTristate true false = 0x7000 /\
  (OutputTristate = OutputTristate /\ true = true /\ false = false).
Proof.
  split.
  - reflexivity.
  - apply (set_mode_data_injective OutputTristate OutputTristate true true false false).
    reflexivity.
Defined.

(** C8 as stated fails: on a transport whose writes fail, [begin] issues
    one transport write, not two. *)
Lemma begin_not_always_two_writes :
  ~ (forall self : AdafruitAD569x,
       length (trace_of (run_op failing_write OpBegin self)) = 2%nat).
Proof.
  intros H. specialize (H (new tt 0x4C)). vm_compute in H. discriminate H.
Qed.
